(** * Thumbnail upload and retrieval handlers

    A shallow embedding of [src/api/thumbnails.ts]: the two HTTP handlers
    [handlerGetThumbnail] and [handlerUploadThumbnail], the module-level map
    [videoThumbnails] they share, and the collaborators they call
    ([getBearerToken], [validateJWT], [getVideo], [updateVideo]).

    The handlers are JavaScript [async] functions that throw.  They are
    embedded as functions in a state-and-exception monad: the state is the
    module-level map together with the contents of the database behind
    [cfg.db]; a thrown error keeps every mutation made before the [throw]. *)

From Stdlib Require Import ZArith Lia.
From stdpp Require Import gmap strings list fin_maps.

Local Open Scope string_scope.
Local Open Scope Z_scope.

(** ** Data *)

(** A [File] part of a multipart form.  [size] is the byte length of its
    content, [type] the media type the client declared for it. *)
Record File := {
  file_name : string;
  file_type : string;
  file_bytes : list Byte.byte;
}.

Definition file_size (f : File) : Z := Z.of_nat (length (file_bytes f)).

(** [thumbnail.arrayBuffer()] *)
Definition arrayBuffer (f : File) : list Byte.byte := file_bytes f.

(** A form field holds a string or a file ([FormDataEntryValue]). *)
Inductive FormDataEntryValue :=
| FormString (s : string)
| FormFile (f : File).

(** A [FormData] is an ordered list of named entries; names may repeat. *)
Definition FormData := list (string * FormDataEntryValue).

(** [formData.get(name)]: the first entry of that name, or [null]. *)
Fixpoint FormData_get (name : string) (fd : FormData) : option FormDataEntryValue :=
  match fd with
  | [] => None
  | (k, v) :: rest => if String.eqb k name then Some v else FormData_get name rest
  end.

(** [type Thumbnail = { data: ArrayBuffer; mediaType: string }] *)
Record Thumbnail := {
  data : list Byte.byte;
  mediaType : string;
}.

(** Modelled from the spec: the [Video] type is declared in [db/videos], which
    is not part of the sources at hand.  The spec names the fields the
    handlers touch: identifier, owning-user identifier, optional thumbnail URL. *)
Record Video := {
  id : string;
  userID : string;
  thumbnailURL : option string;
}.

(** [video.thumbnailURL = url] on the object [getVideo] returned. *)
Definition set_thumbnailURL (url : string) (video : Video) : Video :=
  {| id := id video; userID := userID video; thumbnailURL := Some url |}.

(** The part of [ApiConfig] the handlers read, [cfg.db] apart (the database
    contents live in the state).  [port] is the text the template literal
    [${cfg.port}] produces. *)
Record ApiConfig := {
  jwtSecret : string;
  port : string;
}.

(** [const MAX_UPLOAD_SIZE = 10 << 20] *)
Definition MAX_UPLOAD_SIZE : Z := Z.shiftl 10 20.

(** ** Collaborators

    The functions imported from [../auth] and [../db/videos].  Each may throw;
    what they throw is a value of [exn], which the handlers never catch.
    [updateVideo] returns the database it leaves behind, also when it throws. *)
Class Collaborators := {
  DB : Type;
  Headers : Type;
  Token : Type;
  exn : Type;
  getBearerToken : Headers -> exn + Token;
  validateJWT : Token -> string -> exn + string;
  getVideo : DB -> string -> exn + option Video;
  updateVideo : DB -> Video -> DB * option exn;
}.

(** What a handler resolves to: [new Response(body, { headers })], whose status
    is the default 200, or the result of [respondWithJSON(status, payload)]
    (declared in [./json]; kept symbolic). *)
Inductive Response :=
| Response_new (body : list Byte.byte) (headers : list (string * string))
| respondWithJSON (status : Z) (payload : Video).

Definition status (r : Response) : Z :=
  match r with
  | Response_new _ _ => 200
  | respondWithJSON s _ => s
  end.

(** [response.headers.get(name)] *)
Definition header (name : string) (r : Response) : option string :=
  match r with
  | Response_new _ hs => snd <$> List.find (fun kv => String.eqb (fst kv) name) hs
  | respondWithJSON _ _ => None
  end.

Section Handlers.
Context `{Collaborators}.

(** The request as the handlers read it: route parameter, verb, headers and
    the outcome of [req.formData()], which rejects when the body is not a
    form. *)
Record BunRequest := {
  params_videoId : option string;
  method : string;
  headers : Headers;
  formData : exn + FormData;
}.

(** The error classes of [./errors] the handlers throw, and [Thrown] for a
    collaborator's exception passing through. *)
Inductive HandlerError :=
| BadRequestError (message : string)
| NotFoundError (message : string)
| UserForbiddenError (message : string)
| Thrown (e : exn).

(** The mutable world: the module-level [videoThumbnails] map and the
    database behind [cfg.db]. *)
Record State := {
  videoThumbnails : gmap string Thumbnail;
  db : DB;
}.

(** *** The handler monad *)

Definition Handler (A : Type) : Type := State -> (HandlerError + A) * State.

Definition ret {A} (a : A) : Handler A := fun st => (inr a, st).

Definition throw {A} (e : HandlerError) : Handler A := fun st => (inl e, st).

Definition bind {A B} (m : Handler A) (k : A -> Handler B) : Handler B :=
  fun st =>
    match m st with
    | (inl e, st') => (inl e, st')
    | (inr a, st') => k a st'
    end.

(** A collaborator call that does not touch the state. *)
Definition call {A} (r : exn + A) : Handler A :=
  match r with
  | inl e => throw (Thrown e)
  | inr a => ret a
  end.

(** [getVideo(cfg.db, videoId)] *)
Definition fetchVideo (videoId : string) : Handler (option Video) :=
  fun st => call (getVideo (db st) videoId) st.

(** [updateVideo(cfg.db, video)] *)
Definition persistVideo (video : Video) : Handler unit :=
  fun st =>
    let '(db', r) := updateVideo (db st) video in
    let st' := {| videoThumbnails := videoThumbnails st; db := db' |} in
    match r with
    | Some e => (inl (Thrown e), st')
    | None => (inr tt, st')
    end.

(** [videoThumbnails.get(videoId)] *)
Definition thumbnails_get (videoId : string) : Handler (option Thumbnail) :=
  fun st => (inr (videoThumbnails st !! videoId), st).

(** [videoThumbnails.set(videoId, thumbnail)] *)
Definition thumbnails_set (videoId : string) (t : Thumbnail) : Handler unit :=
  fun st =>
    (inr tt, {| videoThumbnails := <[videoId := t]> (videoThumbnails st);
                db := db st |}).

Notation "x <- m ;; k" := (bind m (fun x => k))
  (at level 100, m at next level, right associativity).
Notation "m ;;; k" := (bind m (fun _ => k))
  (at level 100, right associativity).

(** [const { videoId } = req.params; if (!videoId) throw ...]: [undefined]
    and the empty string are both falsy. *)
Definition require_videoId (req : BunRequest) : Handler string :=
  match params_videoId req with
  | None => throw (BadRequestError "Invalid video ID")
  | Some videoId =>
      if String.eqb videoId "" then throw (BadRequestError "Invalid video ID")
      else ret videoId
  end.

(** *** [handlerGetThumbnail] *)

Definition handlerGetThumbnail (cfg : ApiConfig) (req : BunRequest)
  : Handler Response :=
  videoId <- require_videoId req ;;
  video <- fetchVideo videoId ;;
  match video with
  | None => throw (NotFoundError "Couldn't find video")
  | Some _ =>
      thumbnail <- thumbnails_get videoId ;;
      match thumbnail with
      | None => throw (NotFoundError "Thumbnail not found")
      | Some thumbnail =>
          ret (Response_new (data thumbnail)
                 [("Content-Type", mediaType thumbnail);
                  ("Cache-Control", "no-store")])
      end
  end.

(** *** [handlerUploadThumbnail]

    The [console.log] after authentication writes to the process's log only
    and is left out. *)

(** Steps 2 and 3: [formData.get("thumbnail")] must be truthy (neither
    [null] nor the empty string) and an instance of [File]. *)
Definition require_file (v : option FormDataEntryValue) : Handler File :=
  match v with
  | None => throw (BadRequestError "Missing thumbnail")
  | Some (FormString s) =>
      if String.eqb s "" then throw (BadRequestError "Missing thumbnail")
      else throw (BadRequestError "Thumbnail must be a file")
  | Some (FormFile f) => ret f
  end.

(** The template literal of step 8. *)
Definition thumbnailURL_of (cfg : ApiConfig) (videoId : string) : string :=
  "http://localhost:" +:+ port cfg +:+ "/upload/thumbnails/" +:+ videoId.

(** The body of [if (req.method === "POST") { ... }]. *)
Definition upload_post (cfg : ApiConfig) (req : BunRequest)
    (videoId : string) (video : Video) : Handler Response :=
  formData <- call (formData req) ;;
  thumbnail <- require_file (FormData_get "thumbnail" formData) ;;
  if file_size thumbnail >? MAX_UPLOAD_SIZE then
    throw (BadRequestError "File size exceeds 10MB limit")
  else
    let mediaType := file_type thumbnail in
    if negb (String.prefix "image/" mediaType) then
      throw (BadRequestError "Thumbnail must be an image file")
    else
      let data := arrayBuffer thumbnail in
      thumbnails_set videoId {| data := data; mediaType := mediaType |} ;;;
      let video := set_thumbnailURL (thumbnailURL_of cfg videoId) video in
      persistVideo video ;;;
      ret (respondWithJSON 200 video).

Definition handlerUploadThumbnail (cfg : ApiConfig) (req : BunRequest)
  : Handler Response :=
  videoId <- require_videoId req ;;
  token <- call (getBearerToken (headers req)) ;;
  userID' <- call (validateJWT token (jwtSecret cfg)) ;;
  video <- fetchVideo videoId ;;
  match video with
  | None => throw (NotFoundError "Couldn't find video")
  | Some video =>
      if negb (String.eqb (userID video) userID') then
        throw (UserForbiddenError "You don't own this video")
      else if String.eqb (method req) "POST" then
        upload_post cfg req videoId video
      else
        throw (BadRequestError "Method not allowed")
  end.

End Handlers.

Arguments BunRequest {_}.
Arguments State {_}.
Arguments HandlerError {_}.

(** ** The doubles of the test suite

    [thumbnails.test.ts] replaces the collaborators by [mock(...)] functions:
    [getBearerToken] returns a fixed token, [validateJWT] a fixed user (or
    throws), [getVideo] a fixed record whatever the identifier (or nothing),
    and [updateVideo] records the calls it receives
    ([toHaveBeenCalledWith]).  The database is the list of those calls. *)
Module Mock.

Definition collaborators (user : string + string) (video : option Video)
    (updateThrows : option string) : Collaborators :=
  {| DB := list Video;
     Headers := list (string * string);
     Token := string;
     exn := string;
     getBearerToken := fun _ => inr "valid-token";
     validateJWT := fun _ _ => user;
     getVideo := fun _ _ => inr video;
     updateVideo := fun calls v => (app calls [v], updateThrows) |}.

(** [mockConfig] *)
Definition mockConfig : ApiConfig :=
  {| jwtSecret := "test-secret"; port := "8091" |}.

Definition testVideo (owner : string) : Video :=
  {| id := "test-video-id"; userID := owner; thumbnailURL := None |}.

(** The caller is [user] and owns the video. *)
Definition ownedBy (user : string) (updateThrows : option string)
  : Collaborators :=
  collaborators (inr user) (Some (testVideo user)) updateThrows.

(** The set-up of "File Validation" and "Successful Upload": the caller is
    ["user-123"] and owns the video. *)
Definition owner : Collaborators := ownedBy "user-123" None.

(** "should reject upload from non-owner" *)
Definition nonOwner : Collaborators :=
  collaborators (inr "user-123") (Some (testVideo "user-456")) None.

(** A store that does not know the video. *)
Definition unknownVideo : Collaborators :=
  collaborators (inr "user-123") None None.

(** A store whose write throws. *)
Definition failingStore : Collaborators :=
  ownedBy "user-123" (Some "database is locked").

(** [createMockRequest(videoId, method, file)] *)
Definition createMockRequest (C : Collaborators)
    (hs : @Headers C) (videoId method : string) (file : option File)
  : @BunRequest C :=
  {| params_videoId := Some videoId;
     method := method;
     headers := hs;
     formData := inr match file with
                     | Some f => [("thumbnail", FormFile f)]
                     | None => []
                     end |}.

Definition bearer : list (string * string) :=
  [("Authorization", "Bearer valid-token")].

(** [createImageFile(size)] and [createPdfFile(size)]: zero-filled. *)
Definition createImageFile (sizeInBytes : nat) : File :=
  {| file_name := "test.png"; file_type := "image/png";
     file_bytes := repeat Byte.x00 sizeInBytes |}.

Definition createPdfFile (sizeInBytes : nat) : File :=
  {| file_name := "doc.pdf"; file_type := "application/pdf";
     file_bytes := repeat Byte.x00 sizeInBytes |}.

(** A fresh process: no thumbnail stored, no call recorded. *)
Definition fresh (C : Collaborators) (d : @DB C) : @State C :=
  {| videoThumbnails := ∅; db := d |}.

End Mock.

(** ** Vocabulary of the specification *)

Section Vocabulary.
Context `{Collaborators}.

(** The error class, the message left out: what the spec calls the kind
    that decides the status class of the response. *)
Inductive ErrorClass := BadRequest | NotFound | Forbidden | Propagated.

Definition error_class (e : HandlerError) : ErrorClass :=
  match e with
  | BadRequestError _ => BadRequest
  | NotFoundError _ => NotFound
  | UserForbiddenError _ => Forbidden
  | Thrown _ => Propagated
  end.

Definition error_message (e : HandlerError) : option string :=
  match e with
  | BadRequestError m | NotFoundError m | UserForbiddenError m => Some m
  | Thrown _ => None
  end.

(** The spec's InvalidInput: a bad request about the uploaded part (missing
    file, not a file, oversized, wrong content type), as opposed to
    InvalidIdentifier and MethodNotAllowed, which are bad requests too. *)
Definition InvalidInput (e : HandlerError) : Prop :=
  e = BadRequestError "Missing thumbnail" ∨
  e = BadRequestError "Thumbnail must be a file" ∨
  e = BadRequestError "File size exceeds 10MB limit" ∨
  e = BadRequestError "Thumbnail must be an image file".

Definition MethodNotAllowed : HandlerError :=
  BadRequestError "Method not allowed".

Definition size_error : HandlerError :=
  BadRequestError "File size exceeds 10MB limit".

Definition type_error : HandlerError :=
  BadRequestError "Thumbnail must be an image file".

(** The preconditions of Upload, one predicate each. *)
Definition id_ok (req : BunRequest) (videoId : string) : Prop :=
  params_videoId req = Some videoId ∧ videoId ≠ "".

Definition auth_ok (cfg : ApiConfig) (req : BunRequest) (user : string) : Prop :=
  ∃ token, getBearerToken (headers req) = inr token ∧
           validateJWT token (jwtSecret cfg) = inr user.

Definition video_known (st : State) (videoId : string) (video : Video) : Prop :=
  getVideo (db st) videoId = inr (Some video).

Definition is_POST (req : BunRequest) : Prop := method req = "POST".

Definition carries_file (req : BunRequest) (f : File) : Prop :=
  ∃ fd, formData req = inr fd ∧
        FormData_get "thumbnail" fd = Some (FormFile f).

Definition image_type (f : File) : Prop :=
  String.prefix "image/" (file_type f) = true.

(** An upload that gets as far as the checks on the file. *)
Definition reaches_file_checks (cfg : ApiConfig) (req : BunRequest)
    (st : State) (videoId : string) (video : Video) (f : File) : Prop :=
  id_ok req videoId ∧ auth_ok cfg req (userID video) ∧
  video_known st videoId video ∧ is_POST req ∧ carries_file req f.

(** The write of the updated record goes through, leaving database [d]. *)
Definition persist_ok (cfg : ApiConfig) (st : State) (videoId : string)
    (video : Video) (d : DB) : Prop :=
  updateVideo (db st) (set_thumbnailURL (thumbnailURL_of cfg videoId) video)
  = (d, None).

(** The state a successful upload leaves behind. *)
Definition uploaded (st : State) (videoId : string) (f : File) (d : DB) : State :=
  {| videoThumbnails :=
       <[videoId := {| data := file_bytes f; mediaType := file_type f |}]>
         (videoThumbnails st);
     db := d |}.

End Vocabulary.

(** ** Runs of the process

    The module-level map lives as long as the process: the handlers are
    invoked one after another on the state the previous invocation left. *)

Section Runs.
Context `{Collaborators}.

(** One invocation of one of the two exported handlers. *)
Inductive Call :=
| Upload (cfg : ApiConfig) (req : BunRequest)
| Retrieve (cfg : ApiConfig) (req : BunRequest).

Definition serve (c : Call) : Handler Response :=
  match c with
  | Upload cfg req => handlerUploadThumbnail cfg req
  | Retrieve cfg req => handlerGetThumbnail cfg req
  end.

(** The state after the calls were served in order. *)
Definition serve_all (cs : list Call) (st : State) : State :=
  fold_left (fun st c => snd (serve c st)) cs st.

(** What steps 4 and 5 of the upload let through: at most [MAX_UPLOAD_SIZE]
    bytes, under a media type that starts with [image/]. *)
Definition acceptable (t : Thumbnail) : bool :=
  (Z.of_nat (length (data t)) <=? MAX_UPLOAD_SIZE) &&
  String.prefix "image/" (mediaType t).

Definition all_acceptable (m : gmap string Thumbnail) : Prop :=
  map_Forall (fun _ t => acceptable t = true) m.

(** The same request with another body. *)
Definition with_formData (req : BunRequest) (fd : exn + FormData) : BunRequest :=
  {| params_videoId := params_videoId req; method := method req;
     headers := headers req; formData := fd |}.

(** No entry of the form is named [name]. *)
Definition lacks (name : string) (fd : FormData) : Prop :=
  Forall (fun kv => fst kv ≠ name) fd.

End Runs.

(** ** Stepping through the handlers *)

Section Steps.
Context `{Collaborators}.

Lemma require_videoId_ok (req : BunRequest) (videoId : string) (st : State) :
  id_ok req videoId → require_videoId req st = (inr videoId, st).
Proof.
  intros [Hp Hne]. unfold require_videoId. rewrite Hp.
  apply String.eqb_neq in Hne. now rewrite Hne.
Qed.

Lemma require_videoId_empty (req : BunRequest) (st : State) :
  params_videoId req = None ∨ params_videoId req = Some "" →
  require_videoId req st = (inl (BadRequestError "Invalid video ID"), st).
Proof.
  intros [Hp | Hp]; unfold require_videoId; now rewrite Hp.
Qed.

(** [require_videoId] never touches the state, and what it returns is the
    route parameter. *)
Lemma require_videoId_inv (req : BunRequest) (st : State) :
  (require_videoId req st = (inl (BadRequestError "Invalid video ID"), st) ∧
   (params_videoId req = None ∨ params_videoId req = Some "")) ∨
  (∃ videoId, id_ok req videoId ∧ require_videoId req st = (inr videoId, st)).
Proof.
  unfold require_videoId, id_ok.
  destruct (params_videoId req) as [v|]; [|left; auto].
  destruct (String.eqb_spec v "") as [->|Hne]; [left; auto|].
  right. exists v. auto.
Qed.

(** Past the identifier, authentication, existence and ownership checks, the
    verb decides. *)
Lemma upload_owned (cfg : ApiConfig) (req : BunRequest) (st : State)
    (videoId : string) (video : Video) :
  id_ok req videoId → auth_ok cfg req (userID video) →
  video_known st videoId video →
  handlerUploadThumbnail cfg req st =
    if String.eqb (method req) "POST"
    then upload_post cfg req videoId video st
    else (inl MethodNotAllowed, st).
Proof.
  intros Hid (token & Htok & Hjwt) Hvid.
  unfold handlerUploadThumbnail, bind at 1.
  rewrite (require_videoId_ok _ _ _ Hid).
  unfold bind at 1. rewrite Htok. cbn [call ret].
  unfold bind at 1. rewrite Hjwt. cbn [call ret].
  unfold bind, fetchVideo. red in Hvid. rewrite Hvid. cbn [call ret].
  rewrite String.eqb_refl. cbn [negb].
  now destruct (String.eqb (method req) "POST").
Qed.

(** With a file in the form, the size check comes next, then the type. *)
Lemma upload_post_file (cfg : ApiConfig) (req : BunRequest) (st : State)
    (videoId : string) (video : Video) (f : File) :
  carries_file req f →
  upload_post cfg req videoId video st =
    if file_size f >? MAX_UPLOAD_SIZE then
      (inl (BadRequestError "File size exceeds 10MB limit"), st)
    else if String.prefix "image/" (file_type f) then
      let video' := set_thumbnailURL (thumbnailURL_of cfg videoId) video in
      let '(d, r) := updateVideo (db st) video' in
      (match r with
       | Some e => inl (Thrown e)
       | None => inr (respondWithJSON 200 video')
       end, uploaded st videoId f d)
    else (inl (BadRequestError "Thumbnail must be an image file"), st).
Proof.
  intros (fd & Hfd & Hget).
  unfold upload_post, bind at 1. rewrite Hfd. cbn [call ret].
  unfold bind at 1. rewrite Hget. cbn [require_file ret].
  destruct (file_size f >? MAX_UPLOAD_SIZE); [reflexivity|].
  destruct (String.prefix "image/" (file_type f)); cbn [negb]; [|reflexivity].
  unfold bind, thumbnails_set, persistVideo, uploaded, arrayBuffer.
  cbn [db videoThumbnails].
  destruct (updateVideo (db st) _) as [d [e|]]; reflexivity.
Qed.

(** The whole upload, for a request that reaches the checks on the file. *)
Lemma upload_file_checks (cfg : ApiConfig) (req : BunRequest) (st : State)
    (videoId : string) (video : Video) (f : File) :
  reaches_file_checks cfg req st videoId video f →
  handlerUploadThumbnail cfg req st =
    if file_size f >? MAX_UPLOAD_SIZE then
      (inl (BadRequestError "File size exceeds 10MB limit"), st)
    else if String.prefix "image/" (file_type f) then
      let video' := set_thumbnailURL (thumbnailURL_of cfg videoId) video in
      let '(d, r) := updateVideo (db st) video' in
      (match r with
       | Some e => inl (Thrown e)
       | None => inr (respondWithJSON 200 video')
       end, uploaded st videoId f d)
    else (inl (BadRequestError "Thumbnail must be an image file"), st).
Proof.
  intros (Hid & Hauth & Hvid & Hpost & Hfile).
  rewrite (upload_owned _ _ _ _ _ Hid Hauth Hvid).
  red in Hpost. rewrite Hpost. cbn [String.eqb].
  change (String.eqb "POST" "POST") with true. cbn iota.
  now apply upload_post_file.
Qed.

(** Retrieve, for a known video. *)
Lemma get_known (cfg : ApiConfig) (req : BunRequest) (st : State)
    (videoId : string) (video : Video) :
  id_ok req videoId → video_known st videoId video →
  handlerGetThumbnail cfg req st =
    (match videoThumbnails st !! videoId with
     | None => inl (NotFoundError "Thumbnail not found")
     | Some t => inr (Response_new (data t)
                        [("Content-Type", mediaType t);
                         ("Cache-Control", "no-store")])
     end, st).
Proof.
  intros Hid Hvid. unfold handlerGetThumbnail, bind at 1.
  rewrite (require_videoId_ok _ _ _ Hid).
  unfold bind, fetchVideo, thumbnails_get. red in Hvid. rewrite Hvid.
  cbn [call ret]. now destruct (videoThumbnails st !! videoId).
Qed.

(** Retrieve is a pure read. *)
Lemma get_state (cfg : ApiConfig) (req : BunRequest) (st : State) :
  snd (handlerGetThumbnail cfg req st) = st.
Proof.
  unfold handlerGetThumbnail, bind at 1.
  destruct (require_videoId_inv req st) as [[-> _] | (v & _ & ->)];
    [reflexivity|].
  unfold bind, fetchVideo, thumbnails_get.
  destruct (getVideo (db st) v) as [e | [video|]]; cbn [call ret throw];
    try reflexivity.
  now destruct (videoThumbnails st !! v).
Qed.

(** Every response of Retrieve has the same shape. *)
Lemma get_response (cfg : ApiConfig) (req : BunRequest) (st : State)
    (r : Response) :
  fst (handlerGetThumbnail cfg req st) = inr r →
  ∃ videoId t, id_ok req videoId ∧ videoThumbnails st !! videoId = Some t ∧
    r = Response_new (data t)
          [("Content-Type", mediaType t); ("Cache-Control", "no-store")].
Proof.
  unfold handlerGetThumbnail, bind at 1.
  destruct (require_videoId_inv req st) as [[-> _] | (v & Hid & ->)];
    [discriminate|].
  unfold bind, fetchVideo, thumbnails_get.
  destruct (getVideo (db st) v) as [e | [video|]]; cbn [call ret throw];
    try discriminate.
  destruct (videoThumbnails st !! v) as [t|] eqn:Ht; cbn; [|discriminate].
  intros [= <-]. eauto.
Qed.

(** What Upload can do to the state: nothing to the map, or one [set] under
    the route's identifier. *)
Lemma upload_map (cfg : ApiConfig) (req : BunRequest) (st : State) :
  videoThumbnails (snd (handlerUploadThumbnail cfg req st)) = videoThumbnails st ∨
  ∃ videoId t, id_ok req videoId ∧
    videoThumbnails (snd (handlerUploadThumbnail cfg req st))
    = <[videoId := t]> (videoThumbnails st).
Proof.
  remember (handlerUploadThumbnail cfg req st) as r eqn:Hr. revert Hr.
  unfold handlerUploadThumbnail, bind at 1.
  destruct (require_videoId_inv req st) as [[-> _] | (v & Hid & ->)];
    [intros ->; left; reflexivity|].
  unfold bind at 1.
  destruct (getBearerToken (headers req)) as [e|token]; cbn [call ret throw];
    [intros ->; left; reflexivity|].
  unfold bind at 1.
  destruct (validateJWT token (jwtSecret cfg)) as [e|user]; cbn [call ret throw];
    [intros ->; left; reflexivity|].
  unfold bind at 1, fetchVideo.
  destruct (getVideo (db st) v) as [e | [video|]]; cbn [call ret throw];
    try (intros ->; left; reflexivity).
  destruct (negb _); [intros ->; left; reflexivity|].
  destruct (String.eqb (method req) "POST"); [|intros ->; left; reflexivity].
  unfold upload_post, bind at 1.
  destruct (formData req) as [e|fd]; cbn [call ret throw];
    [intros ->; left; reflexivity|].
  unfold bind at 1, require_file.
  destruct (FormData_get "thumbnail" fd) as [[s|f]|]; cbn [ret throw];
    [destruct (String.eqb s ""); intros ->; left; reflexivity|
    |intros ->; left; reflexivity].
  destruct (file_size f >? MAX_UPLOAD_SIZE); [intros ->; left; reflexivity|].
  destruct (negb _); [intros ->; left; reflexivity|].
  intros ->. right.
  exists v, {| data := arrayBuffer f; mediaType := file_type f |}.
  split; [exact Hid|].
  unfold bind, thumbnails_set, persistVideo. cbn [db videoThumbnails].
  destruct (updateVideo (db st) _) as [d [e|]]; reflexivity.
Qed.

End Steps.

(** ** Successful uploads, inverted *)

Section Inversion.
Context `{Collaborators}.

(** A response from Upload means that every check passed and that the write
    to the video store went through. *)
Lemma upload_success_inv (cfg : ApiConfig) (req : BunRequest)
    (st st' : State) (r : Response) :
  handlerUploadThumbnail cfg req st = (inr r, st') →
  ∃ videoId video f,
    reaches_file_checks cfg req st videoId video f ∧
    file_size f ≤ MAX_UPLOAD_SIZE ∧ image_type f ∧
    persist_ok cfg st videoId video (db st') ∧
    st' = uploaded st videoId f (db st') ∧
    r = respondWithJSON 200
          (set_thumbnailURL (thumbnailURL_of cfg videoId) video).
Proof.
  unfold handlerUploadThumbnail, bind at 1.
  destruct (require_videoId_inv req st) as [[-> _] | (v & Hid & ->)];
    [discriminate|].
  unfold bind at 1.
  destruct (getBearerToken (headers req)) as [e|token] eqn:Htok;
    cbn [call ret throw]; [discriminate|].
  unfold bind at 1.
  destruct (validateJWT token (jwtSecret cfg)) as [e|user] eqn:Hjwt;
    cbn [call ret throw]; [discriminate|].
  unfold bind at 1, fetchVideo.
  destruct (getVideo (db st) v) as [e | [video|]] eqn:Hvid;
    cbn [call ret throw]; try discriminate.
  destruct (String.eqb_spec (userID video) user) as [Hown|Hown];
    cbn [negb]; [|discriminate].
  destruct (String.eqb_spec (method req) "POST") as [Hpost|Hpost];
    [|discriminate].
  assert (Hfile : ∀ f, carries_file req f →
                       reaches_file_checks cfg req st v video f).
  { intros f Hf. split; [exact Hid|]. split; [|now repeat split].
    exists token. rewrite Hown. auto. }
  unfold upload_post, bind at 1.
  destruct (formData req) as [e|fd] eqn:Hfd; cbn [call ret throw];
    [discriminate|].
  unfold bind at 1, require_file.
  destruct (FormData_get "thumbnail" fd) as [[s|f]|] eqn:Hget;
    cbn [ret throw];
    [destruct (String.eqb s ""); discriminate| |discriminate].
  destruct (Z.gtb_spec (file_size f) MAX_UPLOAD_SIZE) as [Hsz|Hsz];
    [discriminate|].
  destruct (String.prefix "image/" (file_type f)) eqn:Hty; cbn [negb];
    [|discriminate].
  unfold bind, thumbnails_set, persistVideo. cbn [db videoThumbnails].
  destruct (updateVideo (db st) _) as [d [e|]] eqn:Hupd; [discriminate|].
  intros [= <- <-]. exists v, video, f. cbn [db].
  split; [apply Hfile; exists fd; auto|].
  split; [exact Hsz|]. split; [exact Hty|]. split; [exact Hupd|].
  split; reflexivity.
Qed.

End Inversion.

(** ** Facts about the test doubles *)

(** A POST of a file by the owner gets to the checks on the file. *)
Lemma mock_reaches_file_checks (user : string) (updateThrows : option string)
    (videoId : string) (f : File)
    (st : @State (Mock.ownedBy user updateThrows)) :
  videoId ≠ "" →
  reaches_file_checks (H := Mock.ownedBy user updateThrows) Mock.mockConfig
    (Mock.createMockRequest (Mock.ownedBy user updateThrows) Mock.bearer
       videoId "POST" (Some f))
    st videoId (Mock.testVideo user) f.
Proof.
  intros Hne. split; [split; [reflexivity | exact Hne]|].
  split; [exists "valid-token"; split; reflexivity|].
  split; [reflexivity|]. split; [reflexivity|].
  exists [("thumbnail", FormFile f)]. split; reflexivity.
Qed.

Lemma mock_file_size (n : Z) :
  0 ≤ n → file_size (Mock.createImageFile (Z.to_nat n)) = n.
Proof.
  intros Hn. unfold file_size, Mock.createImageFile. cbn [file_bytes].
  rewrite repeat_length. now apply Z2Nat.id.
Qed.

Lemma size_check_pass (f : File) :
  file_size f ≤ MAX_UPLOAD_SIZE → (file_size f >? MAX_UPLOAD_SIZE) = false.
Proof. intros Hsz. rewrite Z.gtb_ltb. apply Z.ltb_ge. exact Hsz. Qed.

Lemma size_check_fail (f : File) :
  file_size f > MAX_UPLOAD_SIZE → (file_size f >? MAX_UPLOAD_SIZE) = true.
Proof. intros Hsz. rewrite Z.gtb_ltb. apply Z.ltb_lt. lia. Qed.

(** ** Upload followed by Retrieve *)

Section RoundTrip.
Context `{Collaborators}.

(** C1, as amended.  Take an upload with a non-empty identifier, made by the
    authenticated owner of the video with a POST whose [thumbnail] field is
    a file of at most 10 * 2^20 bytes and of a declared type starting with
    [image/].  Provided the write to the video store succeeds and the store
    still knows the video afterwards, Upload succeeds, and a Retrieve of
    the same identifier succeeds with exactly the bytes of the file and
    its declared type as Content-Type.  Every successful Retrieve carries
    [Cache-Control: no-store]. *)
Theorem upload_then_retrieve (cfg : ApiConfig) (req : BunRequest)
    (st : State) (videoId : string) (video : Video) (f : File) (d : DB) :
  reaches_file_checks cfg req st videoId video f →
  0 ≤ file_size f ≤ MAX_UPLOAD_SIZE →
  image_type f →
  persist_ok cfg st videoId video d →
  (∃ v, getVideo d videoId = inr (Some v)) →
  (∃ r st', handlerUploadThumbnail cfg req st = (inr r, st') ∧
     ∀ (cfg' : ApiConfig) (greq : BunRequest),
       params_videoId greq = Some videoId →
       ∃ body,
         handlerGetThumbnail cfg' greq st'
         = (inr (Response_new body [("Content-Type", file_type f);
                                    ("Cache-Control", "no-store")]), st') ∧
         body = file_bytes f ∧ Z.of_nat (length body) = file_size f) ∧
  (∀ (cfg' : ApiConfig) (greq : BunRequest) (st0 : State) (r : Response),
     fst (handlerGetThumbnail cfg' greq st0) = inr r →
     header "Cache-Control" r = Some "no-store" ∧ status r = 200).
Proof.
  intros Hreach [_ Hsz] Hty Hupd [v Hv]. split.
  - exists (respondWithJSON 200
              (set_thumbnailURL (thumbnailURL_of cfg videoId) video)),
           (uploaded st videoId f d).
    split.
    + rewrite (upload_file_checks _ _ _ _ _ _ Hreach).
      rewrite (size_check_pass _ Hsz).
      red in Hty. rewrite Hty. red in Hupd. cbv zeta. now rewrite Hupd.
    + intros cfg' greq Hg. exists (file_bytes f).
      destruct Hreach as [[_ Hne] _].
      rewrite (get_known cfg' greq _ videoId v); [| now split | exact Hv].
      unfold uploaded. cbn [videoThumbnails]. rewrite lookup_insert_eq.
      cbn [data mediaType]. auto.
  - intros cfg' greq st0 r Hr.
    destruct (get_response _ _ _ _ Hr) as (vid & t & _ & _ & ->).
    split; reflexivity.
Qed.

End RoundTrip.

(** "should store thumbnail in memory for retrieval" *)
Lemma upload_then_retrieve_witness :
  let C := Mock.owner in
  let f := Mock.createImageFile 1024 in
  let req := Mock.createMockRequest C Mock.bearer "test-video-id" "POST" (Some f) in
  let greq := Mock.createMockRequest C Mock.bearer "test-video-id" "GET" None in
  ∃ r st',
    handlerUploadThumbnail (H := C) Mock.mockConfig req (Mock.fresh C [])
    = (inr r, st') ∧
    handlerGetThumbnail (H := C) Mock.mockConfig greq st'
    = (inr (Response_new (file_bytes f)
              [("Content-Type", "image/png"); ("Cache-Control", "no-store")]),
       st').
Proof.
  intros C f req greq.
  destruct (upload_then_retrieve (H := C) Mock.mockConfig req
              (Mock.fresh C []) "test-video-id"
              (Mock.testVideo "user-123") f
              [set_thumbnailURL
                 (thumbnailURL_of Mock.mockConfig "test-video-id")
                 (Mock.testVideo "user-123")])
    as [(r & st' & Hup & Hget) _].
  - apply mock_reaches_file_checks. discriminate.
  - vm_compute. split; discriminate.
  - reflexivity.
  - reflexivity.
  - exists (Mock.testVideo "user-123"). reflexivity.
  - exists r, st'. split; [exact Hup|].
    destruct (Hget Mock.mockConfig greq eq_refl) as (body & Hbody & -> & _).
    exact Hbody.
Defined.

(** C1 as stated fails when the video store rejects the write: every
    condition the claim lists holds, and Upload throws what [updateVideo]
    threw. *)
Lemma upload_fails_when_store_fails :
  let C := Mock.failingStore in
  let f := Mock.createImageFile 1024 in
  let req := Mock.createMockRequest C Mock.bearer "test-video-id" "POST" (Some f) in
  let st := Mock.fresh C [] in
  reaches_file_checks (H := C) Mock.mockConfig req st "test-video-id"
    (Mock.testVideo "user-123") f ∧
  0 ≤ file_size f ≤ MAX_UPLOAD_SIZE ∧
  image_type f ∧
  fst (handlerUploadThumbnail (H := C) Mock.mockConfig req st)
  = inl (Thrown (H := C) "database is locked") ∧
  ¬ ∃ r, fst (handlerUploadThumbnail (H := C) Mock.mockConfig req st) = inr r.
Proof.
  intros C f req st.
  split; [apply mock_reaches_file_checks; discriminate|].
  split; [vm_compute; split; discriminate|].
  split; [reflexivity|].
  assert (Hres : fst (handlerUploadThumbnail (H := C) Mock.mockConfig req st)
                 = inl (Thrown (H := C) "database is locked"))
    by (vm_compute; reflexivity).
  split; [exact Hres|]. intros [r Hr]. rewrite Hres in Hr. discriminate.
Qed.

(** ** The order of Upload's checks *)

Section CheckOrder.
Context `{Collaborators}.

Local Ltac step E :=
  rewrite E; cbn [call ret throw require_file negb].

Local Ltac enter :=
  unfold handlerUploadThumbnail, upload_post, bind, fetchVideo.

(** C2, as amended.  Upload's checks run in this order, the first failing
    one deciding the outcome and leaving the state untouched: identifier
    non-empty; bearer token and its validation (a failure of the Auth
    collaborator passes through); existence of the video; ownership; the
    verb must be POST (else "Method not allowed", a bad request); decoding
    of the form and presence of a file under [thumbnail]; size; declared
    media type.  So a non-POST request sent by the owner of an existing
    video is answered MethodNotAllowed whatever its body holds, and a
    request that passes every check goes on to the two writes. *)
Theorem upload_check_order (cfg : ApiConfig) (req : BunRequest) (st : State) :
  let run := handlerUploadThumbnail cfg req st in
  (params_videoId req = None ∨ params_videoId req = Some "" →
   run = (inl (BadRequestError "Invalid video ID"), st)) ∧
  (∀ videoId, id_ok req videoId →
   (∀ e, getBearerToken (headers req) = inl e → run = (inl (Thrown e), st)) ∧
   (∀ token e, getBearerToken (headers req) = inr token →
      validateJWT token (jwtSecret cfg) = inl e → run = (inl (Thrown e), st)) ∧
   (∀ user, auth_ok cfg req user →
    (∀ e, getVideo (db st) videoId = inl e → run = (inl (Thrown e), st)) ∧
    (getVideo (db st) videoId = inr None →
     run = (inl (NotFoundError "Couldn't find video"), st)) ∧
    (∀ video, video_known st videoId video →
     (userID video ≠ user →
      run = (inl (UserForbiddenError "You don't own this video"), st)) ∧
     (userID video = user →
      (method req ≠ "POST" → run = (inl MethodNotAllowed, st)) ∧
      (is_POST req →
       (∀ e, formData req = inl e → run = (inl (Thrown e), st)) ∧
       (∀ fd, formData req = inr fd →
        (FormData_get "thumbnail" fd = None ∨
         FormData_get "thumbnail" fd = Some (FormString "") →
         run = (inl (BadRequestError "Missing thumbnail"), st)) ∧
        (∀ s, FormData_get "thumbnail" fd = Some (FormString s) → s ≠ "" →
         run = (inl (BadRequestError "Thumbnail must be a file"), st)) ∧
        (∀ f, FormData_get "thumbnail" fd = Some (FormFile f) →
         (file_size f > MAX_UPLOAD_SIZE →
          run = (inl (BadRequestError "File size exceeds 10MB limit"), st)) ∧
         (file_size f ≤ MAX_UPLOAD_SIZE →
          (¬ image_type f →
           run = (inl (BadRequestError "Thumbnail must be an image file"), st)) ∧
          (image_type f →
           ∃ d, snd run = uploaded st videoId f d ∧
                (∀ e, fst run = inl e → error_class e = Propagated)))))))))).
Proof.
  intros run. subst run. split.
  { intros Hid. enter. now rewrite (require_videoId_empty _ _ Hid). }
  intros videoId Hid.
  pose proof (require_videoId_ok _ _ st Hid) as Eid.
  split; [intros e E; enter; step Eid; now step E|].
  split; [intros token e E1 E2; enter; step Eid; step E1; now step E2|].
  intros user (token & Etok & Ejwt).
  split; [intros e E; enter; step Eid; step Etok; step Ejwt; now step E|].
  split; [intros E; enter; step Eid; step Etok; step Ejwt; now step E|].
  intros video Evid. red in Evid.
  split.
  { intros Hown. apply String.eqb_neq in Hown.
    enter. step Eid. step Etok. step Ejwt. step Evid. now step Hown. }
  intros <-.
  assert (Hauth : auth_ok cfg req (userID video)) by (exists token; auto).
  rewrite (upload_owned _ _ _ _ _ Hid Hauth Evid).
  split.
  { intros Hm. apply String.eqb_neq in Hm. now rewrite Hm. }
  intros Hpost. red in Hpost. rewrite Hpost.
  change (String.eqb "POST" "POST") with true. cbv iota.
  split.
  { intros e E. unfold upload_post, bind. now step E. }
  intros fd Efd. split.
  { intros [E|E]; unfold upload_post, bind; step Efd; now step E. }
  split.
  { intros s E Hs. apply String.eqb_neq in Hs.
    unfold upload_post, bind. step Efd. step E. now rewrite Hs. }
  intros f Ef.
  assert (Hfile : carries_file req f) by (exists fd; auto).
  rewrite (upload_post_file _ _ _ _ _ _ Hfile).
  split.
  { intros Hsz. now rewrite (size_check_fail _ Hsz). }
  intros Hsz. rewrite (size_check_pass _ Hsz). split.
  { intros Hty. unfold image_type in Hty.
    now destruct (String.prefix "image/" (file_type f)). }
  intros Hty. red in Hty. rewrite Hty. cbv zeta.
  destruct (updateVideo (db st) _) as [d [e|]].
  - exists d. split; [reflexivity|]. now intros e' [= <-].
  - exists d. split; [reflexivity|]. discriminate.
Qed.

End CheckOrder.

Lemma upload_check_order_witness :
  let C := Mock.owner in
  let req := Mock.createMockRequest C Mock.bearer "test-video-id" "GET" None in
  let st := Mock.fresh C [] in
  handlerUploadThumbnail (H := C) Mock.mockConfig req st
  = (inl (BadRequestError (H := C) "Method not allowed"), st).
Proof.
  intros C req st.
  pose proof (upload_check_order (H := C) Mock.mockConfig req st) as [_ Hladder].
  destruct (Hladder "test-video-id") as (_ & _ & Hauth).
  { split; [reflexivity | discriminate]. }
  destruct (Hauth "user-123") as (_ & _ & Hvideo).
  { exists "valid-token". split; reflexivity. }
  destruct (Hvideo (Mock.testVideo "user-123")) as [_ Howner].
  { reflexivity. }
  destruct (Howner eq_refl) as [Hverb _].
  apply Hverb. discriminate.
Defined.

(** C2 as stated puts the verb check third.  The code asks for the video
    first: a GET on the upload route for a video the store does not know is
    answered NotFound, not MethodNotAllowed, although the identifier is
    non-empty and the caller authenticated. *)
Lemma verb_check_comes_after_video_lookup :
  let C := Mock.unknownVideo in
  let req := Mock.createMockRequest C Mock.bearer "test-video-id" "GET" None in
  let st := Mock.fresh C [] in
  id_ok (H := C) req "test-video-id" ∧
  auth_ok (H := C) Mock.mockConfig req "user-123" ∧
  method req ≠ "POST" ∧
  handlerUploadThumbnail (H := C) Mock.mockConfig req st
  = (inl (NotFoundError (H := C) "Couldn't find video"), st) ∧
  fst (handlerUploadThumbnail (H := C) Mock.mockConfig req st)
  ≠ inl (MethodNotAllowed (H := C)).
Proof.
  intros C req st.
  split; [split; [reflexivity | discriminate]|].
  split; [exists "valid-token"; split; reflexivity|].
  split; [discriminate|].
  assert (Hres : handlerUploadThumbnail (H := C) Mock.mockConfig req st
                 = (inl (NotFoundError (H := C) "Couldn't find video"), st))
    by reflexivity.
  split; [exact Hres|]. rewrite Hres. discriminate.
Qed.

(** ** The checks on the file *)

Section FileChecks.
Context `{Collaborators}.

Lemma InvalidInput_inv (e : HandlerError) :
  InvalidInput e → error_class e = BadRequest.
Proof. intros [->|[->|[->| ->]]]; reflexivity. Qed.

(** C3, as amended.  For an upload that reaches the size check, the
    size-limit error is thrown exactly when the file is longer than
    10 * 2^20 bytes, whatever its declared type; Upload fails with some
    InvalidInput error exactly when the file is too long or its declared type
    does not start with [image/].  A file of exactly 10 * 2^20 bytes passes
    the size check: with an [image/] type it is stored, and Upload succeeds
    when the write to the video store does. *)
Theorem size_limit (cfg : ApiConfig) (req : BunRequest) (st : State)
    (videoId : string) (video : Video) (f : File) :
  reaches_file_checks cfg req st videoId video f →
  let run := handlerUploadThumbnail cfg req st in
  MAX_UPLOAD_SIZE = 10 * 2 ^ 20 ∧
  (fst run = inl size_error ↔ file_size f > MAX_UPLOAD_SIZE) ∧
  (file_size f > MAX_UPLOAD_SIZE →
   run = (inl size_error, st) ∧ InvalidInput size_error) ∧
  ((∃ e, fst run = inl e ∧ InvalidInput e) ↔
   file_size f > MAX_UPLOAD_SIZE ∨ ¬ image_type f) ∧
  (file_size f = MAX_UPLOAD_SIZE → image_type f →
   ∃ d, snd run = uploaded st videoId f d ∧
        (persist_ok cfg st videoId video d →
         fst run = inr (respondWithJSON 200
                          (set_thumbnailURL (thumbnailURL_of cfg videoId) video)))).
Proof.
  intros Hreach run. subst run.
  rewrite (upload_file_checks _ _ _ _ _ _ Hreach).
  split; [reflexivity|].
  assert (Hin : InvalidInput size_error) by (right; right; left; reflexivity).
  assert (Hin' : InvalidInput type_error) by (right; right; right; reflexivity).
  unfold image_type.
  destruct (Z.gtb_spec (file_size f) MAX_UPLOAD_SIZE) as [Hsz|Hsz].
  { split; [split; [lia | reflexivity]|].
    split; [auto|]. split; [|lia].
    split; [left; lia | intros _; exists size_error; auto]. }
  split; [split; [|lia]|].
  { destruct (String.prefix "image/" (file_type f)); cbv zeta;
      [destruct (updateVideo (db st) _) as [d [e|]]|]; discriminate. }
  split; [lia|]. split.
  - destruct (String.prefix "image/" (file_type f)); cbv zeta.
    + split; [|intros [?|?]; [lia | congruence]].
      destruct (updateVideo (db st) _) as [d [e|]]; intros (e' & He & Hi);
        [|discriminate].
      injection He as <-. apply InvalidInput_inv in Hi. discriminate.
    + split; [intros _; right; discriminate|].
      intros _. exists type_error. auto.
  - intros _ Hty. rewrite Hty. cbv zeta.
    unfold persist_ok.
    destruct (updateVideo (db st) _) as [d [e|]]; exists d;
      (split; [reflexivity|]); [discriminate | reflexivity].
Qed.

(** C4.  For an upload that reaches the media-type check with a declared
    type that does not start with [image/], Upload fails with InvalidInput
    ("Thumbnail must be an image file") and changes nothing, whatever the
    size of the file.  The check reads the declared type only: among the
    uploads that reach it, the ones it rejects are exactly those whose
    declared type lacks the prefix, the bytes of the file playing no part. *)
Theorem declared_type_check (cfg : ApiConfig) (req : BunRequest) (st : State)
    (videoId : string) (video : Video) (f : File) :
  reaches_file_checks cfg req st videoId video f →
  file_size f ≤ MAX_UPLOAD_SIZE →
  let run := handlerUploadThumbnail cfg req st in
  (String.prefix "image/" (file_type f) = false →
   run = (inl type_error, st) ∧ InvalidInput type_error) ∧
  (fst run = inl type_error ↔ String.prefix "image/" (file_type f) = false).
Proof.
  intros Hreach Hsz run. subst run.
  rewrite (upload_file_checks _ _ _ _ _ _ Hreach), (size_check_pass _ Hsz).
  destruct (String.prefix "image/" (file_type f)); cbv zeta.
  - split; [discriminate|]. split; [|discriminate].
    destruct (updateVideo (db st) _) as [d [e|]]; discriminate.
  - split; [|split; reflexivity]. intros _. split; [reflexivity|].
    right; right; right; reflexivity.
Qed.

End FileChecks.

(** A zero-filled file of exactly 10 MiB declared [image/png]. *)
Lemma size_limit_witness :
  let C := Mock.owner in
  let f := Mock.createImageFile (Z.to_nat MAX_UPLOAD_SIZE) in
  let req := Mock.createMockRequest C Mock.bearer "test-video-id" "POST" (Some f) in
  let st := Mock.fresh C [] in
  file_size f = 10 * 2 ^ 20 ∧
  ∃ d, snd (handlerUploadThumbnail (H := C) Mock.mockConfig req st)
       = uploaded st "test-video-id" f d.
Proof.
  intros C f req st.
  assert (Hsz : file_size f = MAX_UPLOAD_SIZE)
    by (apply mock_file_size; discriminate).
  split; [exact Hsz|].
  destruct (size_limit (H := C) Mock.mockConfig req st "test-video-id"
              (Mock.testVideo "user-123") f) as (_ & _ & _ & _ & Hok).
  { apply mock_reaches_file_checks. discriminate. }
  destruct (Hok Hsz eq_refl) as (d & Hd & _). exists d. exact Hd.
Defined.

(** C3 as stated fails on a small file that is not an image: Upload fails
    with InvalidInput although the file is far below the ceiling. *)
Lemma small_pdf_is_invalid_input :
  let C := Mock.owner in
  let f := Mock.createPdfFile 1024 in
  let req := Mock.createMockRequest C Mock.bearer "test-video-id" "POST" (Some f) in
  let st := Mock.fresh C [] in
  let run := handlerUploadThumbnail (H := C) Mock.mockConfig req st in
  reaches_file_checks (H := C) Mock.mockConfig req st "test-video-id"
    (Mock.testVideo "user-123") f ∧
  file_size f = 1024 ∧
  (∃ e, fst run = inl e ∧ InvalidInput e) ∧
  ¬ ((∃ e, fst run = inl e ∧ InvalidInput e) ↔ file_size f > MAX_UPLOAD_SIZE).
Proof.
  intros C f req st run.
  assert (Hres : ∃ e, fst run = inl e ∧ InvalidInput e).
  { exists (type_error (H := C)). split; [reflexivity|].
    right; right; right; reflexivity. }
  split; [apply mock_reaches_file_checks; discriminate|].
  split; [reflexivity|]. split; [exact Hres|].
  intros [Hto _]. specialize (Hto Hres). vm_compute in Hto. discriminate.
Qed.

(** The eight bytes of a PNG signature, declared [application/pdf]. *)
Lemma declared_type_check_witness :
  let C := Mock.owner in
  let f := {| file_name := "picture.png"; file_type := "application/pdf";
              file_bytes := [Byte.x89; Byte.x50; Byte.x4e; Byte.x47;
                             Byte.x0d; Byte.x0a; Byte.x1a; Byte.x0a] |} in
  let req := Mock.createMockRequest C Mock.bearer "test-video-id" "POST" (Some f) in
  let st := Mock.fresh C [] in
  handlerUploadThumbnail (H := C) Mock.mockConfig req st
  = (inl (type_error (H := C)), st).
Proof.
  intros C f req st.
  refine (proj1 (proj1 (declared_type_check (H := C) Mock.mockConfig req st
                          "test-video-id" (Mock.testVideo "user-123") f _ _)
                   eq_refl)).
  - apply mock_reaches_file_checks. discriminate.
  - vm_compute. discriminate.
Defined.

(** ** Ownership *)

Section Ownership.
Context `{Collaborators}.

(** C5.  An upload by an authenticated user who is not the video's owner
    fails with Forbidden, whatever the verb and the body of the request, and
    changes nothing: the thumbnail map and the database are as before, so
    every later Retrieve answers as it would have. *)
Theorem upload_by_non_owner (cfg : ApiConfig) (req : BunRequest) (st : State)
    (videoId user : string) (video : Video) :
  id_ok req videoId →
  auth_ok cfg req user →
  video_known st videoId video →
  userID video ≠ user →
  let run := handlerUploadThumbnail cfg req st in
  run = (inl (UserForbiddenError "You don't own this video"), st) ∧
  error_class (UserForbiddenError "You don't own this video") = Forbidden ∧
  videoThumbnails (snd run) = videoThumbnails st ∧
  db (snd run) = db st ∧
  ∀ (cfg' : ApiConfig) (greq : BunRequest),
    handlerGetThumbnail cfg' greq (snd run) = handlerGetThumbnail cfg' greq st.
Proof.
  intros Hid (token & Htok & Hjwt) Hvid Hown run.
  assert (Hrun : run = (inl (UserForbiddenError "You don't own this video"), st)).
  { subst run. unfold handlerUploadThumbnail, bind, fetchVideo.
    rewrite (require_videoId_ok _ _ _ Hid), Htok. cbn [call ret].
    rewrite Hjwt. cbn [call ret]. red in Hvid. rewrite Hvid. cbn [call ret].
    apply String.eqb_neq in Hown. now rewrite Hown. }
  rewrite Hrun. cbn [snd]. auto.
Qed.

End Ownership.

(** "should reject upload from non-owner", with a thumbnail already stored. *)
Lemma upload_by_non_owner_witness :
  let C := Mock.nonOwner in
  let req := Mock.createMockRequest C Mock.bearer "test-video-id" "POST"
               (Some (Mock.createImageFile 1024)) in
  let st := {| videoThumbnails :=
                 {[ "test-video-id" :=
                      {| data := [Byte.x01; Byte.x02]; mediaType := "image/gif" |} ]};
               db := [] |} in
  handlerUploadThumbnail (H := C) Mock.mockConfig req st
  = (inl (UserForbiddenError (H := C) "You don't own this video"), st).
Proof.
  intros C req st.
  refine (proj1 (upload_by_non_owner (H := C) Mock.mockConfig req st
                   "test-video-id" "user-123" (Mock.testVideo "user-456")
                   _ _ _ _)).
  - split; [reflexivity | discriminate].
  - exists "valid-token". split; reflexivity.
  - reflexivity.
  - discriminate.
Defined.

(** ** Overwriting *)

Section Overwrite.
Context `{Collaborators}.

(** C6.  After two successful uploads in a row under one identifier, the map
    holds under that identifier the payload and the declared type of the
    second file and nothing else: a Retrieve of the identifier that
    responds, responds with exactly the second payload and type, and it
    does respond when the store knows the video. *)
Theorem last_upload_wins (cfg1 cfg2 : ApiConfig) (req1 req2 : BunRequest)
    (st st1 st2 : State) (r1 r2 : Response) (videoId : string) :
  params_videoId req1 = Some videoId →
  params_videoId req2 = Some videoId →
  handlerUploadThumbnail cfg1 req1 st = (inr r1, st1) →
  handlerUploadThumbnail cfg2 req2 st1 = (inr r2, st2) →
  ∃ f2, carries_file req2 f2 ∧
    let second := Response_new (file_bytes f2)
                    [("Content-Type", file_type f2);
                     ("Cache-Control", "no-store")] in
    videoThumbnails st2 !! videoId
    = Some {| data := file_bytes f2; mediaType := file_type f2 |} ∧
    (∀ (cfg : ApiConfig) (greq : BunRequest) (r : Response),
       params_videoId greq = Some videoId →
       fst (handlerGetThumbnail cfg greq st2) = inr r → r = second) ∧
    (∀ (cfg : ApiConfig) (greq : BunRequest) (v : Video),
       params_videoId greq = Some videoId →
       video_known st2 videoId v →
       handlerGetThumbnail cfg greq st2 = (inr second, st2)).
Proof.
  intros Hp1 Hp2 _ Hup2.
  destruct (upload_success_inv _ _ _ _ _ Hup2)
    as (vid & video & f2 & Hreach & _ & _ & _ & Hst2 & _).
  pose proof Hreach as ([Hp Hne] & _ & _ & _ & Hfile).
  assert (vid = videoId) as -> by congruence.
  assert (Hlook : videoThumbnails st2 !! videoId
                  = Some {| data := file_bytes f2; mediaType := file_type f2 |}).
  { rewrite Hst2. unfold uploaded. cbn [videoThumbnails].
    apply lookup_insert_eq. }
  exists f2. split; [exact Hfile|]. cbv zeta. split; [exact Hlook|]. split.
  - intros cfg greq r Hg Hr.
    destruct (get_response _ _ _ _ Hr) as (vid & t & [Hp' _] & Ht & ->).
    assert (vid = videoId) as -> by congruence.
    rewrite Hlook in Ht. now injection Ht as <-.
  - intros cfg greq v Hg Hv.
    rewrite (get_known cfg greq st2 videoId v); [| now split | exact Hv].
    now rewrite Hlook.
Qed.

End Overwrite.

(** "should overwrite existing thumbnail": 1024 bytes, then 2048. *)
Lemma last_upload_wins_witness :
  let C := Mock.owner in
  let f1 := Mock.createImageFile 1024 in
  let f2 := Mock.createImageFile 2048 in
  let req1 := Mock.createMockRequest C Mock.bearer "test-video-id" "POST" (Some f1) in
  let req2 := Mock.createMockRequest C Mock.bearer "test-video-id" "POST" (Some f2) in
  let video' := set_thumbnailURL (thumbnailURL_of Mock.mockConfig "test-video-id")
                  (Mock.testVideo "user-123") in
  let st1 := uploaded (Mock.fresh C []) "test-video-id" f1 [video'] in
  let st2 := uploaded st1 "test-video-id" f2 [video'; video'] in
  ∃ f, carries_file req2 f ∧
    videoThumbnails st2 !! "test-video-id"
    = Some {| data := file_bytes f; mediaType := file_type f |} ∧
    Z.of_nat (length (file_bytes f)) = 2048.
Proof.
  intros C f1 f2 req1 req2 video' st1 st2.
  destruct (last_upload_wins (H := C) Mock.mockConfig Mock.mockConfig req1 req2
              (Mock.fresh C []) st1 st2
              (respondWithJSON 200 video') (respondWithJSON 200 video')
              "test-video-id")
    as (f & Hf & Hlook & _).
  - reflexivity.
  - reflexivity.
  - vm_compute. reflexivity.
  - vm_compute. reflexivity.
  - exists f. split; [exact Hf|]. split; [exact Hlook|].
    destruct Hf as (fd & [= <-] & [= <-]). reflexivity.
Defined.

(** ** Retrieve's errors *)

Section RetrieveErrors.
Context `{Collaborators}.

(** C7.  Retrieve fails with NotFound both for a video the store does not
    know and for a known video without a stored thumbnail; the two errors
    are of one class and differ in their message only.  A missing or empty
    identifier gives a bad request, "Invalid video ID". *)
Theorem retrieve_errors (cfg : ApiConfig) (req : BunRequest) (st : State) :
  let run := handlerGetThumbnail cfg req st in
  let unknown_video := NotFoundError "Couldn't find video" in
  let no_thumbnail := NotFoundError "Thumbnail not found" in
  let invalid_id := BadRequestError "Invalid video ID" in
  (params_videoId req = None ∨ params_videoId req = Some "" →
   run = (inl invalid_id, st)) ∧
  (∀ videoId, id_ok req videoId →
     (getVideo (db st) videoId = inr None → run = (inl unknown_video, st)) ∧
     (∀ video, video_known st videoId video →
        videoThumbnails st !! videoId = None →
        run = (inl no_thumbnail, st))) ∧
  error_class unknown_video = NotFound ∧
  error_class no_thumbnail = NotFound ∧
  error_message unknown_video ≠ error_message no_thumbnail ∧
  error_class invalid_id = BadRequest.
Proof.
  intros run unknown_video no_thumbnail invalid_id. subst run.
  split.
  { intros Hid. unfold handlerGetThumbnail, bind.
    now rewrite (require_videoId_empty _ _ Hid). }
  split; [|repeat split; discriminate].
  intros videoId Hid. split.
  - intros Hvid. unfold handlerGetThumbnail, bind, fetchVideo.
    rewrite (require_videoId_ok _ _ _ Hid), Hvid. reflexivity.
  - intros video Hvid Hnone.
    rewrite (get_known _ _ _ _ _ Hid Hvid), Hnone. reflexivity.
Qed.

End RetrieveErrors.

(** "should return 404 for video without thumbnail" *)
Lemma retrieve_errors_witness :
  let C := Mock.owner in
  let req := Mock.createMockRequest C Mock.bearer "test-video-id" "GET" None in
  let st := Mock.fresh C [] in
  handlerGetThumbnail (H := C) Mock.mockConfig req st
  = (inl (NotFoundError (H := C) "Thumbnail not found"), st).
Proof.
  intros C req st.
  destruct (retrieve_errors (H := C) Mock.mockConfig req st) as (_ & Hknown & _).
  destruct (Hknown "test-video-id") as [_ Hthumb].
  { split; [reflexivity | discriminate]. }
  apply (Hthumb (Mock.testVideo "user-123")); reflexivity.
Defined.

(** ** The response of a successful upload *)

Section UploadResponse.
Context `{Collaborators}.

(** C8.  A successful upload builds the URL
    [http://localhost:<port>/upload/thumbnails/<videoId>] from the
    configured port and the identifier, sets it as [thumbnailURL] of the
    record [getVideo] returned, hands that record to [updateVideo], and
    answers with status 200 and the updated record as body. *)
Theorem upload_response (cfg : ApiConfig) (req : BunRequest)
    (st st' : State) (r : Response) :
  handlerUploadThumbnail cfg req st = (inr r, st') →
  ∃ videoId video,
    id_ok req videoId ∧ video_known st videoId video ∧
    let url := "http://localhost:" +:+ port cfg +:+
               "/upload/thumbnails/" +:+ videoId in
    let updated := {| id := id video; userID := userID video;
                      thumbnailURL := Some url |} in
    updateVideo (db st) updated = (db st', None) ∧
    r = respondWithJSON 200 updated ∧
    status r = 200.
Proof.
  intros Hup.
  destruct (upload_success_inv _ _ _ _ _ Hup)
    as (videoId & video & f & Hreach & _ & _ & Hupd & _ & ->).
  destruct Hreach as (Hid & _ & Hvid & _).
  exists videoId, video. split; [exact Hid|]. split; [exact Hvid|].
  cbv zeta. split; [exact Hupd|]. split; reflexivity.
Qed.

End UploadResponse.

(** "should successfully upload valid thumbnail": the mock of [updateVideo]
    was called once, with the record that carries the URL. *)
Lemma upload_response_witness :
  let C := Mock.owner in
  let f := Mock.createImageFile 1024 in
  let req := Mock.createMockRequest C Mock.bearer "test-video-id" "POST" (Some f) in
  let updated :=
    {| id := "test-video-id"; userID := "user-123";
       thumbnailURL :=
         Some "http://localhost:8091/upload/thumbnails/test-video-id" |} in
  ∃ videoId video,
    id_ok req videoId ∧
    video_known (Mock.fresh C []) videoId video ∧
    updateVideo (Collaborators := C) []
      {| id := id video; userID := userID video;
         thumbnailURL :=
           Some ("http://localhost:" +:+ port Mock.mockConfig +:+
                 "/upload/thumbnails/" +:+ videoId) |}
    = ([updated], None).
Proof.
  intros C f req updated.
  destruct (upload_response (H := C) Mock.mockConfig req (Mock.fresh C [])
              (uploaded (Mock.fresh C []) "test-video-id" f [updated])
              (respondWithJSON 200 updated))
    as (videoId & video & Hid & Hvid & Hupd & _).
  - vm_compute. reflexivity.
  - exists videoId, video. split; [exact Hid|]. split; [exact Hvid|]. exact Hupd.
Defined.

(** ** Frame *)

Section Frame.
Context `{Collaborators}.

(** C9.  An upload addressed to one identifier leaves the entry of every
    other identifier as it was (present with the same payload and type, or
    absent), whether the upload succeeds or fails; and Retrieve leaves the
    whole state as it was. *)
Theorem other_thumbnails_untouched (cfg : ApiConfig) (req : BunRequest)
    (st : State) (other : string) :
  params_videoId req ≠ Some other →
  videoThumbnails (snd (handlerUploadThumbnail cfg req st)) !! other
  = videoThumbnails st !! other ∧
  ∀ (cfg' : ApiConfig) (greq : BunRequest) (st0 : State),
    snd (handlerGetThumbnail cfg' greq st0) = st0.
Proof.
  intros Hother. split; [|intros; apply get_state].
  destruct (upload_map cfg req st) as [-> | (videoId & t & [Hp _] & ->)];
    [reflexivity|].
  apply lookup_insert_ne. congruence.
Qed.

End Frame.

(** An upload for ["test-video-id"] next to a thumbnail stored for
    ["other-video"]. *)
Lemma other_thumbnails_untouched_witness :
  let C := Mock.owner in
  let req := Mock.createMockRequest C Mock.bearer "test-video-id" "POST"
               (Some (Mock.createImageFile 1024)) in
  let kept := {| data := [Byte.x01; Byte.x02]; mediaType := "image/gif" |} in
  let st := {| videoThumbnails := {[ "other-video" := kept ]}; db := [] |} in
  videoThumbnails (snd (handlerUploadThumbnail (H := C) Mock.mockConfig req st))
    !! "other-video" = Some kept.
Proof.
  intros C req kept st.
  rewrite (proj1 (other_thumbnails_untouched (H := C) Mock.mockConfig req st
                    "other-video" ltac:(discriminate))).
  reflexivity.
Defined.

(** ** A failing write to the video store *)

Section StoreFailure.
Context `{Collaborators}.

(** C10.  An upload that passes every check writes the thumbnail map first
    and calls [updateVideo] second.  When that call throws, the exception
    reaches the caller and the map keeps the new entry: nothing rolls it
    back, and a Retrieve of the identifier returns the new payload as soon
    as its own lookup of the video succeeds. *)
Theorem thumbnail_survives_store_failure (cfg : ApiConfig) (req : BunRequest)
    (st : State) (videoId : string) (video : Video) (f : File)
    (d : DB) (e : exn) :
  reaches_file_checks cfg req st videoId video f →
  file_size f ≤ MAX_UPLOAD_SIZE →
  image_type f →
  updateVideo (db st) (set_thumbnailURL (thumbnailURL_of cfg videoId) video)
  = (d, Some e) →
  let st' := uploaded st videoId f d in
  handlerUploadThumbnail cfg req st = (inl (Thrown e), st') ∧
  videoThumbnails st'
  = <[videoId := {| data := file_bytes f; mediaType := file_type f |}]>
      (videoThumbnails st) ∧
  videoThumbnails st' !! videoId
  = Some {| data := file_bytes f; mediaType := file_type f |} ∧
  ∀ (cfg' : ApiConfig) (greq : BunRequest) (v : Video),
    params_videoId greq = Some videoId →
    video_known st' videoId v →
    handlerGetThumbnail cfg' greq st'
    = (inr (Response_new (file_bytes f)
              [("Content-Type", file_type f); ("Cache-Control", "no-store")]),
       st').
Proof.
  intros Hreach Hsz Hty Hupd st'.
  assert (Hlook : videoThumbnails st' !! videoId
                  = Some {| data := file_bytes f; mediaType := file_type f |})
    by apply lookup_insert_eq.
  split.
  { rewrite (upload_file_checks _ _ _ _ _ _ Hreach), (size_check_pass _ Hsz).
    red in Hty. rewrite Hty. cbv zeta. now rewrite Hupd. }
  split; [reflexivity|]. split; [exact Hlook|].
  intros cfg' greq v Hg Hv. destruct Hreach as [[_ Hne] _].
  rewrite (get_known cfg' greq st' videoId v); [| now split | exact Hv].
  now rewrite Hlook.
Qed.

End StoreFailure.

(** The write throws "database is locked"; the 1024 bytes are served all the
    same. *)
Lemma thumbnail_survives_store_failure_witness :
  let C := Mock.failingStore in
  let f := Mock.createImageFile 1024 in
  let req := Mock.createMockRequest C Mock.bearer "test-video-id" "POST" (Some f) in
  let greq := Mock.createMockRequest C Mock.bearer "test-video-id" "GET" None in
  let st := Mock.fresh C [] in
  ∃ st',
    handlerUploadThumbnail (H := C) Mock.mockConfig req st
    = (inl (Thrown (H := C) "database is locked"), st') ∧
    handlerGetThumbnail (H := C) Mock.mockConfig greq st'
    = (inr (Response_new (file_bytes f)
              [("Content-Type", "image/png"); ("Cache-Control", "no-store")]),
       st').
Proof.
  intros C f req greq st.
  destruct (thumbnail_survives_store_failure (H := C) Mock.mockConfig req st
              "test-video-id" (Mock.testVideo "user-123") f
              [set_thumbnailURL (thumbnailURL_of Mock.mockConfig "test-video-id")
                 (Mock.testVideo "user-123")]
              "database is locked")
    as (Hup & _ & _ & Hget).
  - apply mock_reaches_file_checks. discriminate.
  - vm_compute. discriminate.
  - reflexivity.
  - reflexivity.
  - eexists. split; [exact Hup|].
    apply (Hget Mock.mockConfig greq (Mock.testVideo "user-123")); reflexivity.
Defined.

(** ** Further properties of the handlers *)

Section Outcomes.
Context `{Collaborators}.

(** Upload either throws with the state untouched, or got past all of its
    checks. *)
Lemma upload_cases (cfg : ApiConfig) (req : BunRequest) (st : State) :
  (∃ e, handlerUploadThumbnail cfg req st = (inl e, st)) ∨
  (∃ videoId video f,
     reaches_file_checks cfg req st videoId video f ∧
     file_size f ≤ MAX_UPLOAD_SIZE ∧ image_type f).
Proof.
  unfold handlerUploadThumbnail, bind at 1.
  destruct (require_videoId_inv req st) as [[-> _] | (v & Hid & ->)];
    [left; eauto|].
  unfold bind at 1.
  destruct (getBearerToken (headers req)) as [e|token] eqn:Htok;
    cbn [call ret throw]; [left; eauto|].
  unfold bind at 1.
  destruct (validateJWT token (jwtSecret cfg)) as [e|user] eqn:Hjwt;
    cbn [call ret throw]; [left; eauto|].
  unfold bind at 1, fetchVideo.
  destruct (getVideo (db st) v) as [e | [video|]] eqn:Hvid;
    cbn [call ret throw]; try (left; eauto; fail).
  destruct (String.eqb_spec (userID video) user) as [Hown|Hown];
    cbn [negb]; [|left; eauto].
  destruct (String.eqb_spec (method req) "POST") as [Hpost|Hpost];
    [|left; eauto].
  unfold upload_post, bind at 1.
  destruct (formData req) as [e|fd] eqn:Hfd; cbn [call ret throw];
    [left; eauto|].
  unfold bind at 1, require_file.
  destruct (FormData_get "thumbnail" fd) as [[s|f]|] eqn:Hget;
    cbn [ret throw];
    [destruct (String.eqb s ""); left; eauto| |left; eauto].
  destruct (Z.gtb_spec (file_size f) MAX_UPLOAD_SIZE) as [Hsz|Hsz];
    [left; eauto|].
  destruct (String.prefix "image/" (file_type f)) eqn:Hty; cbn [negb];
    [|left; eauto].
  right. exists v, video, f.
  split; [|split; assumption].
  split; [exact Hid|]. split; [exists token; rewrite Hown; auto|].
  split; [exact Hvid|]. split; [exact Hpost|]. exists fd. auto.
Qed.

(** Past the checks, Upload is the two writes. *)
Lemma upload_passed (cfg : ApiConfig) (req : BunRequest) (st : State)
    (videoId : string) (video : Video) (f : File) :
  reaches_file_checks cfg req st videoId video f →
  file_size f ≤ MAX_UPLOAD_SIZE → image_type f →
  handlerUploadThumbnail cfg req st =
    let video' := set_thumbnailURL (thumbnailURL_of cfg videoId) video in
    (match snd (updateVideo (db st) video') with
     | Some e => inl (Thrown e)
     | None => inr (respondWithJSON 200 video')
     end, uploaded st videoId f (fst (updateVideo (db st) video'))).
Proof.
  intros Hreach Hsz Hty.
  rewrite (upload_file_checks _ _ _ _ _ _ Hreach), (size_check_pass _ Hsz).
  red in Hty. rewrite Hty. cbv zeta.
  now destruct (updateVideo (db st) _) as [d [e|]].
Qed.

(** X1.  An upload rejected with one of the handler's own errors (bad
    request, not found, forbidden) leaves the thumbnail map and the database
    exactly as they were. *)
Theorem rejected_upload_changes_nothing (cfg : ApiConfig) (req : BunRequest)
    (st : State) (e : HandlerError) :
  fst (handlerUploadThumbnail cfg req st) = inl e →
  error_class e ≠ Propagated →
  snd (handlerUploadThumbnail cfg req st) = st.
Proof.
  intros He Hclass.
  destruct (upload_cases cfg req st)
    as [[e' ->] | (v & video & f & Hreach & Hsz & Hty)]; [reflexivity|].
  rewrite (upload_passed _ _ _ _ _ _ Hreach Hsz Hty) in He. cbv zeta in He.
  cbn [fst] in He.
  destruct (snd (updateVideo (db st) _)); [|discriminate].
  injection He as <-. now elim Hclass.
Qed.

(** X2.  The only write Upload makes to the video store is one [updateVideo]
    of the record [getVideo] returned, with its identifier and owner kept and
    its [thumbnailURL] set; on every other path the database is untouched. *)
Theorem upload_store_write (cfg : ApiConfig) (req : BunRequest) (st : State) :
  db (snd (handlerUploadThumbnail cfg req st)) = db st ∨
  ∃ videoId video,
    id_ok req videoId ∧ video_known st videoId video ∧
    db (snd (handlerUploadThumbnail cfg req st))
    = fst (updateVideo (db st)
             {| id := id video; userID := userID video;
                thumbnailURL := Some (thumbnailURL_of cfg videoId) |}).
Proof.
  destruct (upload_cases cfg req st)
    as [[e' ->] | (v & video & f & Hreach & Hsz & Hty)]; [left; reflexivity|].
  right. exists v, video.
  rewrite (upload_passed _ _ _ _ _ _ Hreach Hsz Hty).
  destruct Hreach as (Hid & _ & Hvid & _). auto.
Qed.

(** X3.  A request whose verb is not POST never gets a response from Upload
    and never changes the state, whatever else it carries. *)
Theorem non_post_never_uploads (cfg : ApiConfig) (req : BunRequest) (st : State) :
  method req ≠ "POST" →
  ∃ e, handlerUploadThumbnail cfg req st = (inl e, st).
Proof.
  intros Hm.
  destruct (upload_cases cfg req st)
    as [Hfail | (v & video & f & Hreach & _)]; [exact Hfail|].
  now destruct Hreach as (_ & _ & _ & Hpost & _).
Qed.

(** X4.  Upload responds exactly when the identifier is non-empty, the caller
    authenticates as the owner of a video the store knows, the verb is POST,
    the form holds a file under [thumbnail] of at most 10 MiB and of a type
    starting with [image/], and the write to the store does not throw. *)
Theorem upload_succeeds_iff (cfg : ApiConfig) (req : BunRequest) (st : State) :
  (∃ r, fst (handlerUploadThumbnail cfg req st) = inr r) ↔
  (∃ videoId video f,
     reaches_file_checks cfg req st videoId video f ∧
     file_size f ≤ MAX_UPLOAD_SIZE ∧ image_type f ∧
     snd (updateVideo (db st)
            (set_thumbnailURL (thumbnailURL_of cfg videoId) video)) = None).
Proof.
  split.
  - intros [r Hr].
    destruct (handlerUploadThumbnail cfg req st) as [res st'] eqn:Hrun.
    cbn [fst] in Hr. subst res.
    destruct (upload_success_inv _ _ _ _ _ Hrun)
      as (v & video & f & Hreach & Hsz & Hty & Hupd & _).
    exists v, video, f. red in Hupd. rewrite Hupd. auto.
  - intros (v & video & f & Hreach & Hsz & Hty & Hupd).
    rewrite (upload_passed _ _ _ _ _ _ Hreach Hsz Hty). cbv zeta.
    rewrite Hupd. eauto.
Qed.

(** X5.  Retrieve responds exactly when the identifier is non-empty, the
    store knows the video and the map holds a thumbnail for it; the response
    is then that thumbnail's bytes under its media type. *)
Theorem retrieve_succeeds_iff (cfg : ApiConfig) (req : BunRequest) (st : State)
    (r : Response) :
  fst (handlerGetThumbnail cfg req st) = inr r ↔
  (∃ videoId video t,
     id_ok req videoId ∧ video_known st videoId video ∧
     videoThumbnails st !! videoId = Some t ∧
     r = Response_new (data t)
           [("Content-Type", mediaType t); ("Cache-Control", "no-store")]).
Proof.
  split.
  - unfold handlerGetThumbnail, bind at 1.
    destruct (require_videoId_inv req st) as [[-> _] | (v & Hid & ->)];
      [discriminate|].
    unfold bind, fetchVideo, thumbnails_get.
    destruct (getVideo (db st) v) as [e | [video|]] eqn:Hvid;
      cbn [call ret throw]; try discriminate.
    destruct (videoThumbnails st !! v) as [t|] eqn:Ht; cbn; [|discriminate].
    intros [= <-]. exists v, video, t. auto.
  - intros (v & video & t & Hid & Hvid & Ht & ->).
    now rewrite (get_known _ _ _ _ _ Hid Hvid), Ht.
Qed.


End Outcomes.

(** Witnesses for the outcome theorems, on the doubles of the test suite. *)

(** "should reject request without file" *)
Lemma rejected_upload_changes_nothing_witness :
  let C := Mock.owner in
  let req := Mock.createMockRequest C Mock.bearer "test-video-id" "POST" None in
  let st := {| videoThumbnails :=
                 {[ "test-video-id" :=
                      {| data := [Byte.x01; Byte.x02]; mediaType := "image/gif" |} ]};
               db := [] |} in
  snd (handlerUploadThumbnail (H := C) Mock.mockConfig req st) = st.
Proof.
  intros C req st.
  apply (rejected_upload_changes_nothing (H := C) Mock.mockConfig req st
           (BadRequestError (H := C) "Missing thumbnail")).
  - reflexivity.
  - discriminate.
Defined.

(** "should reject PUT requests to upload endpoint" *)
Lemma non_post_never_uploads_witness :
  let C := Mock.owner in
  let req := Mock.createMockRequest C Mock.bearer "test-video-id" "PUT"
               (Some (Mock.createImageFile 1024)) in
  let st := Mock.fresh C [] in
  ∃ e, handlerUploadThumbnail (H := C) Mock.mockConfig req st = (inl e, st).
Proof.
  intros C req st.
  apply (non_post_never_uploads (H := C) Mock.mockConfig req st).
  discriminate.
Defined.


(** ** Invariants of the thumbnail map over a run *)

Section MapInvariants.
Context `{Collaborators}.

(** One invocation leaves the map alone or sets one acceptable thumbnail. *)
Lemma serve_map (c : Call) (st : State) :
  videoThumbnails (snd (serve c st)) = videoThumbnails st ∨
  ∃ videoId t, acceptable t = true ∧
    videoThumbnails (snd (serve c st)) = <[videoId := t]> (videoThumbnails st).
Proof.
  destruct c as [cfg req | cfg req]; cbn [serve];
    [|left; now rewrite get_state].
  destruct (upload_cases cfg req st)
    as [[e' ->] | (v & video & f & Hreach & Hsz & Hty)]; [left; reflexivity|].
  right. exists v, {| data := file_bytes f; mediaType := file_type f |}.
  split.
  - unfold acceptable. cbn [data mediaType]. red in Hty. rewrite Hty.
    apply andb_true_intro. split; [|reflexivity]. now apply Z.leb_le.
  - now rewrite (upload_passed _ _ _ _ _ _ Hreach Hsz Hty).
Qed.

Lemma serve_all_cons (c : Call) (cs : list Call) (st : State) :
  serve_all (c :: cs) st = serve_all cs (snd (serve c st)).
Proof. reflexivity. Qed.

(** X7.  No invocation of either handler removes a thumbnail: an identifier
    that has one keeps one through every later run of the process. *)
Theorem thumbnails_never_removed (cs : list Call) (st : State) (videoId : string) :
  is_Some (videoThumbnails st !! videoId) →
  is_Some (videoThumbnails (serve_all cs st) !! videoId).
Proof.
  revert st. induction cs as [|c cs IH]; intros st Hsome; [exact Hsome|].
  rewrite serve_all_cons. apply IH.
  destruct (serve_map c st) as [-> | (k & t & _ & ->)]; [exact Hsome|].
  apply lookup_insert_is_Some.
  destruct (decide (k = videoId)); [left | right]; auto.
Qed.

(** X8.  The checks of Upload are an invariant of the map: if every stored
    thumbnail has at most 10 MiB and a media type starting with [image/],
    the same holds after any run of the two handlers. *)
Theorem stored_thumbnails_stay_acceptable (cs : list Call) (st : State) :
  all_acceptable (videoThumbnails st) →
  all_acceptable (videoThumbnails (serve_all cs st)).
Proof.
  revert st. induction cs as [|c cs IH]; intros st Hinv; [exact Hinv|].
  rewrite serve_all_cons. apply IH.
  destruct (serve_map c st) as [-> | (k & t & Ht & ->)]; [exact Hinv|].
  now apply map_Forall_insert_2.
Qed.

(** X9.  In a process that started with an empty map, whatever requests were
    served since, every response of Retrieve carries at most 10 MiB under a
    Content-Type that starts with [image/]. *)
Theorem retrieve_serves_images_only (cs : list Call) (d : DB)
    (cfg : ApiConfig) (req : BunRequest) (r : Response) :
  fst (handlerGetThumbnail cfg req
         (serve_all cs {| videoThumbnails := ∅; db := d |})) = inr r →
  ∃ body type,
    r = Response_new body [("Content-Type", type); ("Cache-Control", "no-store")] ∧
    Z.of_nat (length body) ≤ MAX_UPLOAD_SIZE ∧
    String.prefix "image/" type = true.
Proof.
  intros Hr.
  destruct (get_response _ _ _ _ Hr) as (v & t & _ & Ht & ->).
  exists (data t), (mediaType t). split; [reflexivity|].
  assert (Hinv : all_acceptable
                   (videoThumbnails
                      (serve_all cs {| videoThumbnails := ∅; db := d |}))).
  { apply stored_thumbnails_stay_acceptable. apply map_Forall_empty. }
  pose proof (map_Forall_lookup_1 _ _ _ _ Hinv Ht) as Hacc. cbn beta in Hacc.
  unfold acceptable in Hacc. apply andb_prop in Hacc as [Hsz Hty].
  split; [now apply Z.leb_le | exact Hty].
Qed.

(** X10.  Two successful uploads in a row under one identifier leave the map
    as the second alone would have left it: the first upload's entry is
    replaced, and every other entry is the one from before both. *)
Theorem second_upload_absorbs_first (cfg1 cfg2 : ApiConfig)
    (req1 req2 : BunRequest) (st st1 st2 : State) (r1 r2 : Response)
    (videoId : string) (f2 : File) :
  params_videoId req1 = Some videoId →
  params_videoId req2 = Some videoId →
  carries_file req2 f2 →
  handlerUploadThumbnail cfg1 req1 st = (inr r1, st1) →
  handlerUploadThumbnail cfg2 req2 st1 = (inr r2, st2) →
  videoThumbnails st2
  = <[videoId := {| data := file_bytes f2; mediaType := file_type f2 |}]>
      (videoThumbnails st).
Proof.
  intros Hp1 Hp2 (fd2 & Hfd2 & Hget2) Hup1 Hup2.
  destruct (upload_success_inv _ _ _ _ _ Hup1)
    as (v1 & video1 & f1 & ([Hq1 _] & _) & _ & _ & _ & Hst1 & _).
  destruct (upload_success_inv _ _ _ _ _ Hup2)
    as (v2 & video2 & f & ([Hq2 _] & _ & _ & _ & (fd & Hfd & Hget))
        & _ & _ & _ & Hst2 & _).
  assert (v1 = videoId) as -> by congruence.
  assert (v2 = videoId) as -> by congruence.
  assert (f = f2) as -> by congruence.
  apply (f_equal videoThumbnails) in Hst1, Hst2.
  unfold uploaded in Hst1, Hst2. cbn [videoThumbnails] in Hst1, Hst2.
  rewrite Hst2, Hst1. apply insert_insert_eq.
Qed.

End MapInvariants.

(** An upload and a retrieval for ["test-video-id"]; the thumbnail of
    ["other-video"] is still there. *)
Lemma thumbnails_never_removed_witness :
  let C := Mock.owner in
  let req := Mock.createMockRequest C Mock.bearer "test-video-id" "POST"
               (Some (Mock.createImageFile 16)) in
  let greq := Mock.createMockRequest C Mock.bearer "test-video-id" "GET" None in
  let kept := {| data := [Byte.x01; Byte.x02]; mediaType := "image/gif" |} in
  let st := {| videoThumbnails := {[ "other-video" := kept ]}; db := [] |} in
  is_Some (videoThumbnails
             (serve_all (H := C)
                [Upload Mock.mockConfig req; Retrieve Mock.mockConfig greq] st)
           !! "other-video").
Proof.
  intros C req greq kept st.
  apply (thumbnails_never_removed (H := C)).
  exists kept. reflexivity.
Defined.

Lemma stored_thumbnails_stay_acceptable_witness :
  let C := Mock.owner in
  let req := Mock.createMockRequest C Mock.bearer "test-video-id" "POST"
               (Some (Mock.createImageFile 16)) in
  all_acceptable
    (videoThumbnails
       (serve_all (H := C) [Upload Mock.mockConfig req] (Mock.fresh C []))).
Proof.
  intros C req.
  apply (stored_thumbnails_stay_acceptable (H := C)).
  apply map_Forall_empty.
Defined.

Lemma retrieve_serves_images_only_witness :
  let C := Mock.owner in
  let req := Mock.createMockRequest C Mock.bearer "test-video-id" "POST"
               (Some (Mock.createImageFile 16)) in
  let greq := Mock.createMockRequest C Mock.bearer "test-video-id" "GET" None in
  ∃ body type,
    Response_new (repeat Byte.x00 16)
      [("Content-Type", "image/png"); ("Cache-Control", "no-store")]
    = Response_new body [("Content-Type", type); ("Cache-Control", "no-store")] ∧
    Z.of_nat (length body) ≤ MAX_UPLOAD_SIZE ∧
    String.prefix "image/" type = true.
Proof.
  intros C req greq.
  apply (retrieve_serves_images_only (H := C) [Upload Mock.mockConfig req] []
           Mock.mockConfig greq).
  vm_compute. reflexivity.
Defined.

(** 1024 bytes, then 2048, in a map that also holds ["other-video"]. *)
Lemma second_upload_absorbs_first_witness :
  let C := Mock.owner in
  let f1 := Mock.createImageFile 1024 in
  let f2 := Mock.createImageFile 2048 in
  let req1 := Mock.createMockRequest C Mock.bearer "test-video-id" "POST" (Some f1) in
  let req2 := Mock.createMockRequest C Mock.bearer "test-video-id" "POST" (Some f2) in
  let video' := set_thumbnailURL (thumbnailURL_of Mock.mockConfig "test-video-id")
                  (Mock.testVideo "user-123") in
  let kept := {| data := [Byte.x01; Byte.x02]; mediaType := "image/gif" |} in
  let st := {| videoThumbnails := {[ "other-video" := kept ]}; db := [] |} in
  let st1 := uploaded st "test-video-id" f1 [video'] in
  let st2 := uploaded st1 "test-video-id" f2 [video'; video'] in
  videoThumbnails st2
  = <[ "test-video-id" := {| data := file_bytes f2; mediaType := "image/png" |} ]>
      {[ "other-video" := kept ]}.
Proof.
  intros C f1 f2 req1 req2 video' kept st st1 st2.
  apply (second_upload_absorbs_first (H := C) Mock.mockConfig Mock.mockConfig
           req1 req2 st st1 st2
           (respondWithJSON 200 video') (respondWithJSON 200 video')
           "test-video-id" f2).
  - reflexivity.
  - reflexivity.
  - exists [("thumbnail", FormFile f2)]. split; reflexivity.
  - vm_compute. reflexivity.
  - vm_compute. reflexivity.
Defined.

(** ** The synthesised URL and the form *)

Section UrlAndForm.
Context `{Collaborators}.

(** X11.  For one configuration, different video identifiers get different
    thumbnail URLs. *)
Theorem thumbnailURL_distinct (cfg : ApiConfig) (videoId1 videoId2 : string) :
  videoId1 ≠ videoId2 →
  thumbnailURL_of cfg videoId1 ≠ thumbnailURL_of cfg videoId2.
Proof.
  intros Hne Heq. apply Hne. unfold thumbnailURL_of in Heq.
  now do 3 apply String.app_inj in Heq.
Qed.

Lemma FormData_get_first (name : string) (fd1 fd2 : FormData)
    (v : FormDataEntryValue) :
  lacks name fd1 → FormData_get name (app fd1 ((name, v) :: fd2)) = Some v.
Proof.
  induction 1 as [|[k w] fd1 Hk _ IH]; cbn [FormData_get app].
  - now rewrite String.eqb_refl.
  - cbn [fst] in Hk. apply String.eqb_neq in Hk. now rewrite Hk.
Qed.

(** X12.  Of the form, Upload reads the first field named [thumbnail] and
    nothing else: fields under other names before it, and any field after
    it (a second [thumbnail] included), do not change what the handler
    does. *)
Theorem first_thumbnail_field_decides (cfg : ApiConfig) (req : BunRequest)
    (st : State) (fd1 fd2 : FormData) (v : FormDataEntryValue) :
  lacks "thumbnail" fd1 →
  formData req = inr (app fd1 (("thumbnail", v) :: fd2)) →
  handlerUploadThumbnail cfg req st
  = handlerUploadThumbnail cfg
      (with_formData req (inr [("thumbnail", v)])) st.
Proof.
  intros Hlacks Hfd.
  unfold handlerUploadThumbnail, upload_post, require_videoId, with_formData.
  cbn [params_videoId headers method formData].
  rewrite Hfd. unfold bind. cbn [call ret].
  rewrite (FormData_get_first _ _ _ _ Hlacks).
  cbn [FormData_get]. change (String.eqb "thumbnail" "thumbnail") with true.
  reflexivity.
Qed.

End UrlAndForm.

Lemma thumbnailURL_distinct_witness :
  thumbnailURL_of Mock.mockConfig "vid-1" ≠ thumbnailURL_of Mock.mockConfig "vid-2".
Proof.
  apply thumbnailURL_distinct. discriminate.
Defined.

(** A text field [title], a text field [thumbnail], then a file under
    [thumbnail]: the text field decides. *)
Lemma first_thumbnail_field_decides_witness :
  let C := Mock.owner in
  let req := {| params_videoId := Some "test-video-id"; method := "POST";
                headers := Mock.bearer;
                formData := inr [("title", FormString "holiday");
                                 ("thumbnail", FormString "cat.png");
                                 ("thumbnail", FormFile (Mock.createImageFile 16))]
             |} in
  handlerUploadThumbnail (H := C) Mock.mockConfig req (Mock.fresh C [])
  = (inl (BadRequestError (H := C) "Thumbnail must be a file"), Mock.fresh C []).
Proof.
  intros C req.
  rewrite (first_thumbnail_field_decides (H := C) Mock.mockConfig req
             (Mock.fresh C []) [("title", FormString "holiday")]
             [("thumbnail", FormFile (Mock.createImageFile 16))]
             (FormString "cat.png")).
  - reflexivity.
  - repeat constructor. discriminate.
  - reflexivity.
Defined.

(** ** The helpers of the test suite *)

Lemma createImageFile_size (n : nat) :
  file_size (Mock.createImageFile n) = Z.of_nat n.
Proof.
  unfold file_size, Mock.createImageFile. cbn [file_bytes].
  now rewrite repeat_length.
Qed.

Lemma createPdfFile_size (n : nat) :
  file_size (Mock.createPdfFile n) = Z.of_nat n.
Proof.
  unfold file_size, Mock.createPdfFile. cbn [file_bytes].
  now rewrite repeat_length.
Qed.

(** X13.  What the "File Validation" tests probe at single sizes holds at
    every size: for the owner's POST built by [createMockRequest], a file from
    [createImageFile(n)] is answered 200 with the URL of the video when
    [n] is at most 10 MiB and "File size exceeds 10MB limit" otherwise; a
    file from [createPdfFile(n)] is always refused, for its type up to
    10 MiB and for its size beyond (the size check comes first); and a
    request built without a file is refused with "Missing thumbnail". *)
Theorem mock_upload_outcomes (n : nat) (videoId : string) :
  videoId ≠ "" →
  let C := Mock.owner in
  let post := fun file =>
    fst (handlerUploadThumbnail (H := C) Mock.mockConfig
           (Mock.createMockRequest C Mock.bearer videoId "POST" file)
           (Mock.fresh C [])) in
  post (Some (Mock.createImageFile n))
  = (if Z.of_nat n <=? 10 * 1024 * 1024
     then inr (respondWithJSON 200
                 {| id := "test-video-id"; userID := "user-123";
                    thumbnailURL :=
                      Some ("http://localhost:8091/upload/thumbnails/"
                            +:+ videoId) |})
     else inl (size_error (H := C))) ∧
  post (Some (Mock.createPdfFile n))
  = inl (if Z.of_nat n <=? 10 * 1024 * 1024
         then type_error (H := C) else size_error (H := C)) ∧
  post None = inl (BadRequestError (H := C) "Missing thumbnail").
Proof.
  intros Hne C post. subst post. cbv beta.
  assert (Hgt : (Z.of_nat n >? MAX_UPLOAD_SIZE)
                = negb (Z.of_nat n <=? 10 * 1024 * 1024)).
  { change MAX_UPLOAD_SIZE with (10 * 1024 * 1024).
    rewrite Z.gtb_ltb, Z.leb_antisym. apply eq_sym, negb_involutive. }
  split; [|split].
  - rewrite (upload_file_checks (H := C) _ _ _ videoId
               (Mock.testVideo "user-123") (Mock.createImageFile n))
      by (apply mock_reaches_file_checks; exact Hne).
    rewrite createImageFile_size, Hgt.
    now destruct (Z.of_nat n <=? 10 * 1024 * 1024).
  - rewrite (upload_file_checks (H := C) _ _ _ videoId
               (Mock.testVideo "user-123") (Mock.createPdfFile n))
      by (apply mock_reaches_file_checks; exact Hne).
    rewrite createPdfFile_size, Hgt.
    now destruct (Z.of_nat n <=? 10 * 1024 * 1024).
  - rewrite (upload_owned (H := C) _ _ _ videoId (Mock.testVideo "user-123")).
    + reflexivity.
    + split; [reflexivity | exact Hne].
    + exists "valid-token". split; reflexivity.
    + reflexivity.
Qed.

(** "should reject non-image files", under the identifier of "should handle
    special characters in video ID". *)
Lemma mock_upload_outcomes_witness :
  let C := Mock.owner in
  fst (handlerUploadThumbnail (H := C) Mock.mockConfig
         (Mock.createMockRequest C Mock.bearer "test-video-123-abc_def" "POST"
            (Some (Mock.createPdfFile 1024)))
         (Mock.fresh C []))
  = inl (type_error (H := C)).
Proof.
  intros C.
  exact (proj1 (proj2 (mock_upload_outcomes 1024 "test-video-123-abc_def"
                         ltac:(discriminate)))).
Defined.
